(** * setup.py of modified-Levenshtein: the build script and what it asks of its host

    The repository's only source file is the build script

<<
      from distutils.core import setup
      from Cython.Build import cythonize
      # import numpy

      setup(
              ext_modules=cythonize("cLev.pyx")
              # include_dirs=[numpy.get_include()] # needed for np support
      )
>>

    The script is embedded as a computation in a small state-and-exception
    monad.  Everything that is not the script's own text (the import system,
    the objects that [distutils] and [Cython] export, the file system they
    work on) is the _host_: an arbitrary instance of the class [Host].  The
    interpreter state keeps the module's global namespace, the host's state
    and, as ghost state, the history of the requests the script made of the
    host together with the host's answers.  The attributes the interpreter
    gives a module before its first statement runs ([__name__], [__file__],
    [__spec__] and the like) come from the host as well. *)

From stdpp Require Import base strings list gmap.

(** ** Values, exceptions, results *)

(** The values that flow through the script: the one string literal, and
    objects owned by the imported libraries (functions, extension lists, the
    distribution object), which the script only passes around.  [VNone] is
    [None]: the script never makes one, the interpreter binds some module
    attributes to it. *)
Inductive value :=
  | VNone
  | VStr (s : string)
  | VObj (o : positive).

(** A raised exception: its class name and its message. *)
Record exn := Exn { exn_class : string; exn_msg : string }.

(** How evaluating an expression or a statement ends. *)
Inductive result (A : Type) :=
  | Ret (a : A)
  | Raise (e : exn).
Arguments Ret {A} a.
Arguments Raise {A} e.

#[global] Instance value_eq_dec : EqDecision value.
Proof. solve_decision. Defined.
#[global] Instance exn_eq_dec : EqDecision exn.
Proof. solve_decision. Defined.
#[global] Instance result_eq_dec `{EqDecision A} : EqDecision (result A).
Proof. solve_decision. Defined.

(** ** How the file is loaded *)

(** Run as a script, or imported as the module [setup]. *)
Inductive run_mode := AsScript | AsImport.

(** The value of [__name__]. *)
Definition module_name (mode : run_mode) : string :=
  match mode with
  | AsScript => "__main__"
  | AsImport => "setup"
  end.

(** ** The host *)

(** What the script can ask of its host.  [ImportFrom m n] is the statement
    [from m import n]; [Call site f args kwargs] is a call of the object [f],
    which the script found under the global name [site], with positional and
    keyword arguments.  The name [site] records the call site; the host only
    receives the object. *)
Inductive request :=
  | ImportFrom (module name : string)
  | Call (site : string) (callee : value)
         (args : list value) (kwargs : list (string * value)).

#[global] Instance request_eq_dec : EqDecision request.
Proof. solve_decision. Defined.

(** A host with states [W]: how it answers an import and a call, and the
    state it is left in; and the attributes its interpreter gives the module
    when it loads the file.  The functions are arbitrary: an import runs the
    imported module, a call runs library code, and both may raise. *)
Class Host (W : Type) := {
  host_import_from : string → string → W → W * result value;
  host_call : value → list value → list (string * value) → W → W * result value;
  host_module_attrs : run_mode → W → gmap string value;
}.

Definition perform `{Host W} (q : request) (w : W) : W * result value :=
  match q with
  | ImportFrom m n => host_import_from m n w
  | Call _ f args kwargs => host_call f args kwargs w
  end.

(** One entry of the history: a request and the host's answer. *)
Record event := Event { ev_req : request; ev_resp : result value }.

#[global] Instance event_eq_dec : EqDecision event.
Proof. solve_decision. Defined.

(** ** The interpreter state and its monad *)

Record frame (W : Type) := Frame {
  globals : gmap string value;   (* the module's namespace *)
  world : W;                     (* the host's state *)
  trace : list event;            (* ghost: requests made so far, oldest first *)
}.
Arguments Frame {W} _ _ _.
Arguments globals {W} _.
Arguments world {W} _.
Arguments trace {W} _.

Definition Py (W A : Type) : Type := frame W → frame W * result A.

#[global] Instance Py_ret {W} : MRet (Py W) := λ A a fr, (fr, Ret a).
#[global] Instance Py_bind {W} : MBind (Py W) := λ A B k c fr,
  match c fr with
  | (fr', Ret a) => k a fr'
  | (fr', Raise e) => (fr', Raise e)
  end.

Section Interp.
Context `{Host W}.

(** Hand a request to the host, log it with its answer, continue with the
    answer. *)
Definition ask (q : request) : Py W value := λ fr,
  let '(w', r) := perform q (world fr) in
  (Frame (globals fr) w' (trace fr ++ [Event q r]), r).

(** [n = v] at module level. *)
Definition store_name (n : string) (v : value) : Py W unit := λ fr,
  (Frame (<[n:=v]> (globals fr)) (world fr) (trace fr), Ret ()).

(** Reading the global name [n]; an unbound name raises [NameError].  (The
    interpreter looks in the builtins after the globals; the two names the
    script reads, [setup] and [cythonize], are no builtins.) *)
Definition load_name (n : string) : Py W value := λ fr,
  match globals fr !! n with
  | Some v => (fr, Ret v)
  | None => (fr, Raise (Exn "NameError" ("name '" +:+ n +:+ "' is not defined")))
  end.

(** [from m import n]: the host loads the module and yields its attribute,
    which is bound to [n]; when the host raises, nothing is bound. *)
Definition import_from (m n : string) : Py W unit :=
  v ← ask (ImportFrom m n); store_name n v.

(** A literal. *)
Definition const (v : value) : Py W value := mret v.

(** Positional arguments are evaluated left to right. *)
Fixpoint eval_args (es : list (Py W value)) : Py W (list value) :=
  match es with
  | [] => mret []
  | e :: es' => v ← e; vs ← eval_args es'; mret (v :: vs)
  end.

(** Keyword arguments are evaluated left to right, after the positional
    ones. *)
Fixpoint eval_kwargs (es : list (string * Py W value)) : Py W (list (string * value)) :=
  match es with
  | [] => mret []
  | (k, e) :: es' => v ← e; kvs ← eval_kwargs es'; mret ((k, v) :: kvs)
  end.

(** The call expression [fn(args, kwargs)] with a global name as callee:
    the callee is looked up first, then the arguments are evaluated, then
    the object is called. *)
Definition call_name (fn : string) (args : list (Py W value))
    (kwargs : list (string * Py W value)) : Py W value :=
  f ← load_name fn;
  vs ← eval_args args;
  kvs ← eval_kwargs kwargs;
  ask (Call fn f vs kvs).

(** An expression statement: the value is dropped. *)
Definition expr_stmt (e : Py W value) : Py W unit := e;; mret ().

(** ** The script *)

(** setup.py, statement by statement.  Lines 3 and 7 of the file are
    comments ([# import numpy] and [# include_dirs=[numpy.get_include()]]),
    so neither an import of numpy nor an [include_dirs] keyword is part of
    the program. *)
Definition setup_py : Py W unit :=
  import_from "distutils.core" "setup";;
  import_from "Cython.Build" "cythonize";;
  expr_stmt
    (call_name "setup" []
       [("ext_modules", call_name "cythonize" [const (VStr "cLev.pyx")] [])]).

End Interp.

(** ** Executing the module *)

(** A name of the form [__x__]: the kind of name the interpreter itself binds
    in a module. *)
Definition is_dunder (n : string) : bool :=
  String.prefix "__" n && String.prefix "__" (String.rev n).

(** The namespace a module starts with: [__name__], which tells a script run
    from an import, and whatever other double-underscore attributes the host's
    interpreter provides ([__doc__], [__file__], [__spec__], [__builtins__],
    ...; which ones, and their values, depend on the interpreter's version
    and on how the file is loaded).  Nothing else is bound before the first
    statement. *)
Definition module_namespace `{Host W} (mode : run_mode) (w : W) : gmap string value :=
  <["__name__" := VStr (module_name mode)]>
    (filter (λ kv, is_dunder kv.1 = true) (host_module_attrs mode w)).

Definition initial_frame `{Host W} (mode : run_mode) (w : W) : frame W :=
  Frame (module_namespace mode w) w [].

(** The script run in the namespace [ns], from the host state [w]. *)
Definition exec_in `{Host W} (ns : gmap string value) (w : W) : frame W * result unit :=
  setup_py (Frame ns w []).

Definition exec_module `{Host W} (mode : run_mode) (w : W) : frame W * result unit :=
  setup_py (initial_frame mode w).

(** What an execution leaves behind. *)
Definition outcome `{Host W} (mode : run_mode) (w : W) : result unit :=
  (exec_module mode w).2.
Definition history `{Host W} (mode : run_mode) (w : W) : list event :=
  trace (exec_module mode w).1.
Definition final_world `{Host W} (mode : run_mode) (w : W) : W :=
  world (exec_module mode w).1.

(** ** The four requests of the script *)

Definition req_import_setup : request := ImportFrom "distutils.core" "setup".
Definition req_import_cythonize : request := ImportFrom "Cython.Build" "cythonize".
(** [cythonize("cLev.pyx")], where [g] is the object bound to [cythonize]. *)
Definition req_cythonize (g : value) : request :=
  Call "cythonize" g [VStr "cLev.pyx"] [].
(** [setup(ext_modules=m)], where [f] is the object bound to [setup]. *)
Definition req_setup (f m : value) : request :=
  Call "setup" f [] [("ext_modules", m)].

(** The five ways an execution in the namespace [ns] can go: one of the four
    requests raises, or all four return.  Each case gives the final frame and
    the outcome. *)
Inductive run_shape `{Host W} (ns : gmap string value) (w : W) :
    frame W → result unit → Prop :=
  | run_import_setup_raises w1 e :
      perform req_import_setup w = (w1, Raise e) →
      run_shape ns w
        (Frame ns w1 [Event req_import_setup (Raise e)])
        (Raise e)
  | run_import_cythonize_raises w1 f w2 e :
      perform req_import_setup w = (w1, Ret f) →
      perform req_import_cythonize w1 = (w2, Raise e) →
      run_shape ns w
        (Frame (<["setup":=f]> ns) w2
           [Event req_import_setup (Ret f); Event req_import_cythonize (Raise e)])
        (Raise e)
  | run_cythonize_raises w1 f w2 g w3 e :
      perform req_import_setup w = (w1, Ret f) →
      perform req_import_cythonize w1 = (w2, Ret g) →
      perform (req_cythonize g) w2 = (w3, Raise e) →
      run_shape ns w
        (Frame (<["cythonize":=g]> (<["setup":=f]> ns)) w3
           [Event req_import_setup (Ret f); Event req_import_cythonize (Ret g);
            Event (req_cythonize g) (Raise e)])
        (Raise e)
  | run_setup_raises w1 f w2 g w3 m w4 e :
      perform req_import_setup w = (w1, Ret f) →
      perform req_import_cythonize w1 = (w2, Ret g) →
      perform (req_cythonize g) w2 = (w3, Ret m) →
      perform (req_setup f m) w3 = (w4, Raise e) →
      run_shape ns w
        (Frame (<["cythonize":=g]> (<["setup":=f]> ns)) w4
           [Event req_import_setup (Ret f); Event req_import_cythonize (Ret g);
            Event (req_cythonize g) (Ret m); Event (req_setup f m) (Raise e)])
        (Raise e)
  | run_completes w1 f w2 g w3 m w4 d :
      perform req_import_setup w = (w1, Ret f) →
      perform req_import_cythonize w1 = (w2, Ret g) →
      perform (req_cythonize g) w2 = (w3, Ret m) →
      perform (req_setup f m) w3 = (w4, Ret d) →
      run_shape ns w
        (Frame (<["cythonize":=g]> (<["setup":=f]> ns)) w4
           [Event req_import_setup (Ret f); Event req_import_cythonize (Ret g);
            Event (req_cythonize g) (Ret m); Event (req_setup f m) (Ret d)])
        (Ret ()).

(** The requests the script can make: one of its four. *)
Definition script_request (q : request) : Prop :=
  q = req_import_setup ∨ q = req_import_cythonize
  ∨ (∃ g, q = req_cythonize g) ∨ (∃ f m, q = req_setup f m).

(** ** Reading a history *)

Definition requests (tr : list event) : list request := ev_req <$> tr.
Definition answers (tr : list event) : list (result value) := ev_resp <$> tr.

Definition is_call (ev : event) : bool :=
  match ev_req ev with
  | Call _ _ _ _ => true
  | ImportFrom _ _ => false
  end.

(** The calls made at the call site [site(...)]. *)
Definition is_call_at (site : string) (ev : event) : bool :=
  match ev_req ev with
  | Call s _ _ _ => String.eqb s site
  | ImportFrom _ _ => false
  end.
Definition calls_at (site : string) (tr : list event) : list event :=
  List.filter (is_call_at site) tr.

(** The modules the script asked the host to import. *)
Definition module_of (q : request) : option string :=
  match q with
  | ImportFrom m _ => Some m
  | Call _ _ _ _ => None
  end.
Definition imported_modules (tr : list event) : list string :=
  omap (λ ev, module_of (ev_req ev)) tr.

(** The keywords of a call. *)
Definition kwarg_names (ev : event) : list string :=
  match ev_req ev with
  | Call _ _ _ kwargs => kwargs.*1
  | ImportFrom _ _ => []
  end.

Definition returned (ev : event) : bool :=
  match ev_resp ev with
  | Ret _ => true
  | Raise _ => false
  end.

(** The outcome of an expression statement whose expression ended in [r]. *)
Definition drop_value {A} (r : result A) : result unit :=
  match r with
  | Ret _ => Ret ()
  | Raise e => Raise e
  end.

(** [runs_on w tr w']: the history [tr] is what the host itself does from
    state [w], one request after the other, each on the state its predecessor
    left, ending in [w']; every recorded answer is the host's. *)
Inductive runs_on `{Host W} : W → list event → W → Prop :=
  | runs_nil w : runs_on w [] w
  | runs_cons w q tr w' :
      runs_on (perform q w).1 tr w' →
      runs_on w (Event q (perform q w).2 :: tr) w'.

(** The object [v] is what some import [from m import n] yields. *)
Definition exports `{Host W} (m n : string) (v : value) : Prop :=
  ∃ w w', host_import_from m n w = (w', Ret v).

(** The host answers [q] alike in any two states related by [R], and keeps
    them related: [q] cannot tell such states apart. *)
Definition insensitive `{Host W} (R : relation W) (q : request) : Prop :=
  ∀ w1 w2, R w1 w2 →
    R (perform q w1).1 (perform q w2).1 ∧ (perform q w1).2 = (perform q w2).2.

(** ** A concrete host: a build machine

    A machine to run the script on, for instances of the theorems: a Linux
    x86-64 machine with CPython 3.12, where [distutils] is provided by
    setuptools when that is installed.  Its state says which libraries are
    installed, whether compiling cLev.pyx needs numpy's headers, which files
    exist (paths relative to the directory of setup.py), and the command line
    after the script's name.  The machine covers what the script can ask and
    a small part of the distutils command line; file contents, compiler
    errors in the source and installation directories are not modelled. *)
Record machine := Machine {
  has_distutils : bool;
  has_cython : bool;
  has_numpy : bool;
  source_needs_numpy : bool;
  files : list string;
  argv : list string;
}.

Definition setup_fn : value := VObj 1.
Definition cythonize_fn : value := VObj 2.
Definition get_include_fn : value := VObj 3.
(** What [cythonize("cLev.pyx")] returns: the list with the one extension
    [cLev], built from cLev.c. *)
Definition extension_list : value := VObj 4.
Definition distribution : value := VObj 5.
(** What [cythonize] returns for another source. *)
Definition other_extensions : value := VObj 6.
Definition source_loader : value := VObj 7.
Definition module_spec : value := VObj 8.
Definition builtins_module : value := VObj 9.
Definition builtins_dict : value := VObj 10.

Definition no_module (m : string) : exn :=
  Exn "ModuleNotFoundError" ("No module named '" +:+ m +:+ "'").
Definition no_attribute (n m : string) : exn :=
  Exn "ImportError" ("cannot import name '" +:+ n +:+ "' from '" +:+ m +:+ "'").

Definition machine_import (m n : string) (w : machine) : machine * result value :=
  if bool_decide (m = "distutils.core") then
    if has_distutils w then
      if bool_decide (n = "setup") then (w, Ret setup_fn)
      else (w, Raise (no_attribute n m))
    else (w, Raise (no_module "distutils"))
  else if bool_decide (m = "Cython.Build") then
    if has_cython w then
      if bool_decide (n = "cythonize") then (w, Ret cythonize_fn)
      else (w, Raise (no_attribute n m))
    else (w, Raise (no_module "Cython"))
  else if bool_decide (m = "numpy") then
    if has_numpy w then
      if bool_decide (n = "get_include") then (w, Ret get_include_fn)
      else (w, Raise (no_attribute n m))
    else (w, Raise (no_module "numpy"))
  else (w, Raise (no_module m)).

Definition add_file (name : string) (w : machine) : machine :=
  Machine (has_distutils w) (has_cython w) (has_numpy w) (source_needs_numpy w)
          (if bool_decide (name ∈ files w) then files w else files w ++ [name])
          (argv w).

(** The C file Cython writes for a source: [x.pyx] gives [x.c]. *)
Definition c_file (src : string) : string :=
  String.substring 0 (String.length src - 4) src +:+ ".c".

(** Where a build puts the compiled extension: beside the source for
    [build_ext --inplace], under build/ otherwise. *)
Definition build_lib : string := "build/lib.linux-x86_64-cpython-312/".
Definition ext_suffix : string := ".cpython-312-x86_64-linux-gnu.so".
Definition wants_inplace (args : list string) : bool :=
  match args with
  | cmd :: opts =>
      bool_decide (cmd = "build_ext")
      && (bool_decide ("--inplace" ∈ opts) || bool_decide ("-i" ∈ opts))
  | [] => false
  end.
Definition artifact_path (args : list string) : string :=
  (if wants_inplace args then "cLev" else build_lib +:+ "cLev") +:+ ext_suffix.

(** Commands that build the extensions, and commands and options that return
    without building anything. *)
Definition build_commands : list string := ["build"; "build_ext"; "install"].
Definition quiet_commands : list string :=
  ["--help"; "-h"; "--help-commands"; "clean"; "check"].

(** [cythonize] wants one source that exists, writes its C file and returns
    the extension list.  [setup] wants a command on the command line: for a
    build command it compiles the extension it is given, which fails when the
    source needs numpy's headers and numpy is not installed; for a quiet
    command it returns without building; with no command, or an unknown one,
    it exits with an error. *)
Definition machine_call (f : value) (args : list value)
    (kwargs : list (string * value)) (w : machine) : machine * result value :=
  if bool_decide (f = cythonize_fn) then
    match args, kwargs with
    | [VStr src], [] =>
        if bool_decide (src ∈ files w) then
          (add_file (c_file src) w,
           Ret (if bool_decide (src = "cLev.pyx") then extension_list
                else other_extensions))
        else (w, Raise (Exn "ValueError" ("'" +:+ src +:+ "' doesn't match any files")))
    | _, _ => (w, Raise (Exn "TypeError" "cythonize: unsupported arguments"))
    end
  else if bool_decide (f = setup_fn) then
    match argv w with
    | [] => (w, Raise (Exn "SystemExit" "error: no commands supplied"))
    | cmd :: _ =>
        if bool_decide (cmd ∈ quiet_commands) then (w, Ret distribution)
        else if bool_decide (cmd ∈ build_commands) then
          match kwargs with
          | [("ext_modules", m)] =>
              if bool_decide (m = extension_list) then
                if source_needs_numpy w && negb (has_numpy w) then
                  (w, Raise (Exn "SystemExit"
                               "error: command 'gcc' failed with exit code 1"))
                else (add_file (artifact_path (argv w)) w, Ret distribution)
              else (w, Ret distribution)
          | _ => (w, Ret distribution)
          end
        else (w, Raise (Exn "SystemExit" ("error: invalid command '" +:+ cmd +:+ "'")))
    end
  else (w, Raise (Exn "TypeError" "object is not callable")).

(** The module attributes of CPython 3.12 for a file run as a script and for
    an imported one. *)
Definition script_path : string := "/home/user/modified-Levenshtein/setup.py".
Definition cache_path : string :=
  "/home/user/modified-Levenshtein/__pycache__/setup.cpython-312.pyc".
Definition machine_attrs (mode : run_mode) (w : machine) : gmap string value :=
  match mode with
  | AsScript =>
      {[ "__doc__" := VNone; "__package__" := VNone;
         "__loader__" := source_loader; "__spec__" := VNone;
         "__file__" := VStr script_path; "__cached__" := VNone;
         "__builtins__" := builtins_module ]}
  | AsImport =>
      {[ "__doc__" := VNone; "__package__" := VStr EmptyString;
         "__loader__" := source_loader; "__spec__" := module_spec;
         "__file__" := VStr script_path; "__cached__" := VStr cache_path;
         "__builtins__" := builtins_dict ]}
  end.

#[global] Instance machine_host : Host machine := {
  host_import_from := machine_import;
  host_call := machine_call;
  host_module_attrs := machine_attrs;
}.

Definition source_on_disk (w : machine) : bool := bool_decide ("cLev.pyx" ∈ files w).
(** The compiled extension is where the command line asks for it. *)
Definition artifact_on_disk (w : machine) : bool :=
  bool_decide (artifact_path (argv w) ∈ files w).
(** Both libraries can be imported, the command line asks for a build, and
    numpy's headers are there if the source needs them. *)
Definition toolchain_ready (w : machine) : bool :=
  has_distutils w && has_cython w
  && match argv w with
     | cmd :: _ => bool_decide (cmd ∉ quiet_commands) && bool_decide (cmd ∈ build_commands)
     | [] => false
     end
  && (negb (source_needs_numpy w) || has_numpy w).

(** A machine with everything in place, asked to build in place. *)
Definition workstation : machine :=
  Machine true true true false ["setup.py"; "cLev.pyx"] ["build_ext"; "--inplace"].
(** The same machine with one thing missing. *)
Definition without_cython : machine :=
  Machine true false true false ["setup.py"; "cLev.pyx"] ["build_ext"; "--inplace"].
Definition without_distutils : machine :=
  Machine false true true false ["setup.py"; "cLev.pyx"] ["build_ext"; "--inplace"].
Definition without_numpy : machine :=
  Machine true true false false ["setup.py"; "cLev.pyx"] ["build_ext"; "--inplace"].
Definition without_source : machine :=
  Machine true true true false ["setup.py"] ["build_ext"; "--inplace"].
(** The same machine, invoked with no command. *)
Definition without_command : machine :=
  Machine true true true false ["setup.py"; "cLev.pyx"] [].
(** A machine with neither distutils nor Cython. *)
Definition bare_python : machine :=
  Machine false false false false ["setup.py"; "cLev.pyx"] ["build_ext"; "--inplace"].
(** Machines whose cLev.pyx needs numpy's headers, with and without numpy. *)
Definition numpy_source_with_numpy : machine :=
  Machine true true true true ["setup.py"; "cLev.pyx"] ["build_ext"; "--inplace"].
Definition numpy_source_without_numpy : machine :=
  Machine true true false true ["setup.py"; "cLev.pyx"] ["build_ext"; "--inplace"].

(** Machines that differ at most in whether numpy is installed, and whose
    source does not need numpy. *)
Definition same_but_numpy (w1 w2 : machine) : Prop :=
  has_distutils w1 = has_distutils w2 ∧ has_cython w1 = has_cython w2 ∧
  files w1 = files w2 ∧ argv w1 = argv w2 ∧
  source_needs_numpy w1 = false ∧ source_needs_numpy w2 = false.
(** Machines that differ at most in their command line. *)
Definition same_but_argv (w1 w2 : machine) : Prop :=
  has_distutils w1 = has_distutils w2 ∧ has_cython w1 = has_cython w2 ∧
  has_numpy w1 = has_numpy w2 ∧ files w1 = files w2 ∧
  source_needs_numpy w1 = source_needs_numpy w2.

(** Unfolding the interpreter's combinators, leaving the host's functions and
    the namespace lookups in place. *)
Ltac py_unfold :=
  cbv [exec_module setup_py import_from expr_stmt call_name eval_args
       eval_kwargs ask store_name load_name const mbind mret Py_bind Py_ret
       initial_frame globals world trace].

(** * Theorems *)

Lemma exec_in_shape `{Host W} (ns : gmap string value) (w : W) :
  run_shape ns w (exec_in ns w).1 (exec_in ns w).2.
Proof.
  unfold exec_in. py_unfold.
  destruct (perform _ w) as [w1 [f|e]] eqn:E1; py_unfold.
  2: { by apply run_import_setup_raises. }
  destruct (perform _ w1) as [w2 [g|e]] eqn:E2; py_unfold.
  2: { by eapply run_import_cythonize_raises. }
  rewrite lookup_insert_ne by done. rewrite !lookup_insert_eq.
  destruct (perform _ w2) as [w3 [m|e]] eqn:E3; py_unfold.
  2: { by eapply run_cythonize_raises. }
  destruct (perform _ w3) as [w4 [d|e]] eqn:E4; py_unfold.
  - by eapply run_completes.
  - by eapply run_setup_raises.
Qed.

Lemma exec_module_shape `{Host W} (mode : run_mode) (w : W) :
  run_shape (module_namespace mode w) w (exec_module mode w).1 (exec_module mode w).2.
Proof. apply exec_in_shape. Qed.


Lemma module_namespace_plain `{Host W} (mode : run_mode) (w : W) (n : string) :
  is_dunder n = false → module_namespace mode w !! n = None.
Proof.
  intros Hn. unfold module_namespace.
  rewrite lookup_insert_ne by (intros <-; discriminate Hn).
  apply map_lookup_filter_None. right. intros v _. cbn. by rewrite Hn.
Qed.

(** The script on the build machine. *)
Example workstation_run :
  exec_module AsScript workstation =
    (Frame (<["cythonize":=cythonize_fn]> (<["setup":=setup_fn]>
              (module_namespace AsScript workstation)))
       (add_file "cLev.cpython-312-x86_64-linux-gnu.so" (add_file "cLev.c" workstation))
       [Event req_import_setup (Ret setup_fn);
        Event req_import_cythonize (Ret cythonize_fn);
        Event (req_cythonize cythonize_fn) (Ret extension_list);
        Event (req_setup setup_fn extension_list) (Ret distribution)],
     Ret ()).
Proof. vm_compute. reflexivity. Qed.

(** Case analysis on an execution: one goal per constructor of [run_shape],
    with the final frame and the outcome replaced by their values. *)
Ltac run_cases mode w :=
  unfold history, outcome, final_world;
  destruct (exec_module_shape mode w)
    as [w1 e E1 | w1 f w2 e E1 E2 | w1 f w2 g w3 e E1 E2 E3
       | w1 f w2 g w3 m w4 e E1 E2 E3 E4 | w1 f w2 g w3 m w4 d E1 E2 E3 E4];
  cbn [globals world trace fst snd].

(** A string that is none of the strings of an explicit list. *)
Ltac not_in_list :=
  cbn; rewrite ?elem_of_cons, ?elem_of_nil; intuition congruence.

(** C2. In every execution the include-directory option is inactive: no call
    the script makes carries an [include_dirs] keyword (the call of [setup]
    carries [ext_modules] and nothing else), the script never asks the host
    to import numpy, and the name [numpy] is unbound in the module's
    namespace when the script ends. *)
Theorem include_dirs_inactive `{Host W} (mode : run_mode) (w : W) :
  Forall (λ ev, "include_dirs" ∉ kwarg_names ev) (history mode w)
  ∧ Forall (λ ev, kwarg_names ev = ["ext_modules"])
      (calls_at "setup" (history mode w))
  ∧ ("numpy" ∉ imported_modules (history mode w))
  ∧ globals (exec_module mode w).1 !! "numpy" = None.
Proof.
  run_cases mode w; (split_and!;
    [repeat constructor; not_in_list | cbn; repeat constructor
    | not_in_list
    | rewrite ?lookup_insert_ne by done; by apply module_namespace_plain]).
Qed.

(** Two equations for the same request in the same state agree. *)
Ltac sync :=
  repeat match goal with
  | E : perform ?q ?w = _, E' : perform ?q ?w = _ |- _ =>
      rewrite E in E'; simplify_eq
  | E : perform ?q ?w = _ |- context [perform ?q ?w] => rewrite E
  | E : perform ?q ?w = _, E' : context [perform ?q ?w] |- _ => rewrite E in E'
  end.

(** The recorded history is the host's own run from the initial state: the
    script adds no effect of its own between two requests. *)
Lemma history_runs_on `{Host W} (mode : run_mode) (w : W) :
  runs_on w (history mode w) (final_world mode w).
Proof.
  run_cases mode w;
    repeat match goal with
    | E : perform ?q ?w0 = (?w', ?r) |- runs_on ?w0 (Event ?q ?r :: _) _ =>
        replace r with (perform q w0).2 by (by rewrite E);
        apply runs_cons; rewrite E; cbn [fst snd]
    end; apply runs_nil.
Qed.

(** Every request of a history is one of the script's four. *)
Lemma history_script_requests `{Host W} (mode : run_mode) (w : W) :
  Forall script_request (requests (history mode w)).
Proof.
  run_cases mode w; cbn;
    repeat first [apply Forall_nil_2 | apply Forall_cons_2];
    unfold script_request; eauto 7.
Qed.

(** C1, as the code has it.  In every execution the script calls [setup] at
    most once.  When it does, the call has no positional argument and the one
    keyword [ext_modules], bound to the value that the script's single call
    [cythonize("cLev.pyx")] returned.  The call is made exactly when both
    imports and that [cythonize] call have returned: when an import or
    [cythonize] raises, [setup] is not called.  Besides it the script asks the
    host for nothing but the two imports and the [cythonize] call, each at
    most once and in this order, and the host's state changes through these
    requests only: the script has no output and no other effect of its
    own. *)
Theorem setup_called_once_with_cythonized_source `{Host W}
    (mode : run_mode) (w : W) :
  (calls_at "setup" (history mode w) = []
   ∨ ∃ f g m r,
       calls_at "setup" (history mode w) = [Event (req_setup f m) r]
       ∧ calls_at "cythonize" (history mode w) = [Event (req_cythonize g) (Ret m)])
  ∧ (∀ w1 f w2 g w3 m,
       perform req_import_setup w = (w1, Ret f) →
       perform req_import_cythonize w1 = (w2, Ret g) →
       perform (req_cythonize g) w2 = (w3, Ret m) →
       calls_at "setup" (history mode w)
         = [Event (req_setup f m) (perform (req_setup f m) w3).2])
  ∧ (∀ ev e, ev ∈ history mode w → ev_resp ev = Raise e →
       is_call_at "setup" ev = false → calls_at "setup" (history mode w) = [])
  ∧ (∃ f g m, requests (history mode w) `prefix_of`
                [req_import_setup; req_import_cythonize;
                 req_cythonize g; req_setup f m])
  ∧ Forall script_request (requests (history mode w))
  ∧ runs_on w (history mode w) (final_world mode w).
Proof.
  split_and!; [| | | | apply history_script_requests | apply history_runs_on].
  - run_cases mode w; cbn; eauto 8.
  - intros v1 f' v2 g' v3 m' F1 F2 F3.
    run_cases mode w; sync; done.
  - run_cases mode w; intros ev e' Hin Hev Hsite; try done;
      repeat (apply elem_of_cons in Hin as [Hin|Hin]);
      try (by apply elem_of_nil in Hin);
      subst ev; cbn in Hev, Hsite; by simplify_eq.
  - run_cases mode w; cbn;
      first [ exists f, g, m | exists f, g, (VObj 1)
            | exists f, (VObj 1), (VObj 1)
            | exists (VObj 1), (VObj 1), (VObj 1) ];
      by eexists.
Qed.

(** C1, an instance: on the build machine [setup] is called once, with the
    extension list that [cythonize] made of cLev.pyx. *)
Lemma setup_called_once_on_workstation :
  calls_at "setup" (history AsScript workstation)
    = [Event (req_setup setup_fn extension_list) (Ret distribution)].
Proof.
  exact (proj1 (proj2 (setup_called_once_with_cythonized_source AsScript workstation))
           workstation setup_fn workstation cythonize_fn
           (add_file "cLev.c" workstation) extension_list
           eq_refl eq_refl eq_refl).
Defined.

(** C1 as stated does not hold: on a machine without Cython the second
    import raises and the script ends without any call of [setup]. *)
Lemma no_setup_call_without_cython :
  calls_at "setup" (history AsScript without_cython) = []
  ∧ history AsScript without_cython
      = [Event req_import_setup (Ret setup_fn);
         Event req_import_cythonize (Raise (no_module "Cython"))]
  ∧ outcome AsScript without_cython = Raise (no_module "Cython").
Proof. vm_compute. done. Qed.

(** C3. A failure of the host is the script's failure, unmodified.  If any
    request raises [e], the script ends with [e] itself and that request is
    the last of the history (nothing is retried or recovered).  Conversely
    an exception the script ends with is the one its last request raised, so
    the script has no error of its own.  A script that completes has seen
    every request return.  And no request precedes a call but the import
    statements and the script's own [cythonize] call: nothing is validated
    beforehand. *)
Theorem failures_propagate_unmodified `{Host W} (mode : run_mode) (w : W) :
  (∀ ev e, ev ∈ history mode w → ev_resp ev = Raise e →
     outcome mode w = Raise e ∧ last (history mode w) = Some ev)
  ∧ (∀ e, outcome mode w = Raise e →
       ∃ q, last (history mode w) = Some (Event q (Raise e)))
  ∧ (outcome mode w = Ret () →
       Forall (λ ev, returned ev = true) (history mode w))
  ∧ (∀ i ev, history mode w !! i = Some ev → is_call ev = true →
       Forall (λ q, q = req_import_setup ∨ q = req_import_cythonize
                    ∨ ∃ g, q = req_cythonize g)
         (take i (requests (history mode w)))).
Proof.
  split_and!.
  - run_cases mode w; intros ev e' Hin Hev;
      repeat (apply elem_of_cons in Hin as [Hin|Hin]);
      try (by apply elem_of_nil in Hin);
      subst ev; cbn in Hev; by simplify_eq.
  - intros e'. run_cases mode w; intros ?; simplify_eq; cbn; eauto.
  - run_cases mode w; intros ?; simplify_eq.
    repeat first [apply Forall_nil_2 | apply Forall_cons_2]; done.
  - run_cases mode w; intros i ev Hi Hcall;
      repeat (destruct i as [|i]; cbn in Hi; simplify_eq; try done);
      cbn; repeat first [apply Forall_nil_2 | apply Forall_cons_2]; eauto.
Qed.

(** C3, an instance: without the source file [cythonize] raises
    [ValueError], and that is how the script ends. *)
Lemma missing_source_error_propagates :
  outcome AsScript without_source
    = Raise (Exn "ValueError" "'cLev.pyx' doesn't match any files")
  ∧ last (history AsScript without_source)
    = Some (Event (req_cythonize cythonize_fn)
              (Raise (Exn "ValueError" "'cLev.pyx' doesn't match any files"))).
Proof.
  apply (proj1 (failures_propagate_unmodified AsScript without_source)
           (Event (req_cythonize cythonize_fn)
              (Raise (Exn "ValueError" "'cLev.pyx' doesn't match any files")))).
  - by apply (list_elem_of_lookup_2 _ 2).
  - reflexivity.
Defined.

(** ** The build step and the source file *)

Section BuildStep.
Context `{Host W}.
(** What can be seen of a host state: is cLev.pyx there, is the compiled
    extension there, and is the toolchain ready to build (both libraries
    installed, a build command on the command line, a working compiler). *)
Variables source_present artifact_built toolchain_works : W → bool.

(** The toolchain's side of the matter.  Importing does not touch the source
    file, and [cythonize] raises when the source is not there. *)
Hypothesis imports_keep_source : ∀ q w,
  q = req_import_setup ∨ q = req_import_cythonize →
  source_present (perform q w).1 = source_present w.
Hypothesis cythonize_needs_source : ∀ g w,
  exports "Cython.Build" "cythonize" g → source_present w = false →
  ∃ e, (perform (req_cythonize g) w).2 = Raise e.
(** A toolchain that works stays so while the script runs: both imports
    return, [cythonize] returns when the source is there, and [setup], given
    what [cythonize] returned and called in the state [cythonize] left,
    returns with the extension built. *)
Hypothesis working_import_setup : ∀ w,
  toolchain_works w = true →
  ∃ w1 f, perform req_import_setup w = (w1, Ret f) ∧ toolchain_works w1 = true.
Hypothesis working_import_cythonize : ∀ w,
  toolchain_works w = true →
  ∃ w2 g, perform req_import_cythonize w = (w2, Ret g) ∧ toolchain_works w2 = true.
Hypothesis working_cythonize : ∀ g w,
  exports "Cython.Build" "cythonize" g →
  toolchain_works w = true → source_present w = true →
  ∃ w3 m, perform (req_cythonize g) w = (w3, Ret m) ∧ toolchain_works w3 = true.
Hypothesis working_setup : ∀ f g m w w3,
  exports "distutils.core" "setup" f → exports "Cython.Build" "cythonize" g →
  perform (req_cythonize g) w = (w3, Ret m) → toolchain_works w3 = true →
  ∃ w4 d, perform (req_setup f m) w3 = (w4, Ret d) ∧ artifact_built w4 = true.

(** C4, as the code has it.  With cLev.pyx absent the build step fails, and
    [setup] is never called.  With cLev.pyx present and a toolchain that
    works, the step completes and the compiled extension is there.  Presence
    of the source alone decides nothing: the step completes exactly when all
    four requests of the script return (both imports, [cythonize], [setup]),
    and fails when one of them raises. *)
Theorem build_step_follows_toolchain (mode : run_mode) (w : W) :
  (source_present w = false →
     (∃ e, outcome mode w = Raise e) ∧ calls_at "setup" (history mode w) = [])
  ∧ (source_present w = true → toolchain_works w = true →
       outcome mode w = Ret () ∧ artifact_built (final_world mode w) = true)
  ∧ (outcome mode w = Ret () ↔
       length (history mode w) = 4
       ∧ Forall (λ ev, returned ev = true) (history mode w)).
Proof.
  split; [|split].
  - run_cases mode w; intros Hsrc; try (split; [by eauto | done]); exfalso.
    all: pose proof (imports_keep_source req_import_setup w (or_introl eq_refl)) as K1.
    all: pose proof (imports_keep_source req_import_cythonize w1 (or_intror eq_refl)) as K2.
    all: rewrite E1 in K1; rewrite E2 in K2; cbn in K1, K2.
    all: destruct (cythonize_needs_source g w2) as [e' He'];
      [by exists w1, w2 | congruence | ].
    all: rewrite E3 in He'; done.
  - intros Hsrc Hok.
    destruct (working_import_setup w Hok) as (v1 & f' & F1 & Hok1).
    destruct (working_import_cythonize v1 Hok1) as (v2 & g' & F2 & Hok2).
    pose proof (imports_keep_source req_import_setup w (or_introl eq_refl)) as K1.
    pose proof (imports_keep_source req_import_cythonize v1 (or_intror eq_refl)) as K2.
    rewrite F1 in K1; rewrite F2 in K2; cbn in K1, K2.
    assert (exports "Cython.Build" "cythonize" g') as Hg by (by exists v1, v2).
    assert (exports "distutils.core" "setup" f') as Hf by (by exists w, v1).
    destruct (working_cythonize g' v2 Hg Hok2) as (v3 & m' & F3 & Hok3);
      [congruence|].
    destruct (working_setup f' g' m' v2 v3 Hf Hg F3 Hok3) as (v4 & d' & F4 & Hart).
    run_cases mode w; sync; done.
  - run_cases mode w; split; try discriminate.
    all: try (intros [Hlen Hret]; discriminate Hlen).
    + intros [_ Hret]. rewrite !Forall_cons in Hret. cbn in Hret.
      by destruct_and!.
    + intros _. split; [done|].
      repeat first [apply Forall_nil_2 | apply Forall_cons_2]; done.
    + done.
Qed.

End BuildStep.

(** The build machine keeps the toolchain's side. *)
Lemma machine_import_world (m n : string) (w : machine) :
  (machine_import m n w).1 = w.
Proof. unfold machine_import. by repeat case_match. Qed.

Lemma machine_exports_cythonize (g : value) :
  exports "Cython.Build" "cythonize" g → g = cythonize_fn.
Proof.
  intros (w & w' & E). cbv [host_import_from machine_host] in E.
  unfold machine_import in E.
  repeat (case_bool_decide; try done). destruct (has_cython w); by simplify_eq.
Qed.

Lemma machine_exports_setup (f : value) :
  exports "distutils.core" "setup" f → f = setup_fn.
Proof.
  intros (w & w' & E). cbv [host_import_from machine_host] in E.
  unfold machine_import in E.
  repeat (case_bool_decide; try done). destruct (has_distutils w); by simplify_eq.
Qed.

Lemma machine_imports_keep_source (q : request) (w : machine) :
  q = req_import_setup ∨ q = req_import_cythonize →
  source_on_disk (perform q w).1 = source_on_disk w.
Proof.
  intros [->| ->]; cbn [perform req_import_setup req_import_cythonize
                        host_import_from machine_host];
    by rewrite machine_import_world.
Qed.

Lemma machine_cythonize_needs_source (g : value) (w : machine) :
  exports "Cython.Build" "cythonize" g → source_on_disk w = false →
  ∃ e, (perform (req_cythonize g) w).2 = Raise e.
Proof.
  intros ->%machine_exports_cythonize Hsrc.
  cbn [perform req_cythonize host_call machine_host]. unfold machine_call.
  rewrite bool_decide_eq_true_2 by done.
  unfold source_on_disk in Hsrc. rewrite Hsrc. eauto.
Qed.

Lemma machine_working_import_setup (w : machine) :
  toolchain_ready w = true →
  ∃ w1 f, perform req_import_setup w = (w1, Ret f) ∧ toolchain_ready w1 = true.
Proof.
  intros Hok. exists w, setup_fn. split; [|done].
  unfold toolchain_ready in Hok. destruct (has_distutils w) eqn:Hd; [|done].
  cbn [perform req_import_setup host_import_from machine_host].
  unfold machine_import. rewrite Hd. by rewrite !bool_decide_eq_true_2.
Qed.

Lemma machine_working_import_cythonize (w : machine) :
  toolchain_ready w = true →
  ∃ w2 g, perform req_import_cythonize w = (w2, Ret g) ∧ toolchain_ready w2 = true.
Proof.
  intros Hok. exists w, cythonize_fn. split; [|done].
  unfold toolchain_ready in Hok.
  destruct (has_distutils w); [|done]. destruct (has_cython w) eqn:Hc; [|done].
  cbn [perform req_import_cythonize host_import_from machine_host].
  unfold machine_import. rewrite Hc.
  rewrite bool_decide_eq_false_2 by done. by rewrite !bool_decide_eq_true_2.
Qed.

Lemma machine_working_cythonize (g : value) (w : machine) :
  exports "Cython.Build" "cythonize" g →
  toolchain_ready w = true → source_on_disk w = true →
  ∃ w3 m, perform (req_cythonize g) w = (w3, Ret m) ∧ toolchain_ready w3 = true.
Proof.
  intros ->%machine_exports_cythonize Hok Hsrc.
  cbn [perform req_cythonize host_call machine_host]. unfold machine_call.
  rewrite bool_decide_eq_true_2 by done.
  unfold source_on_disk in Hsrc. rewrite Hsrc. by eexists _, _.
Qed.

Lemma machine_working_setup (f g m : value) (w w3 : machine) :
  exports "distutils.core" "setup" f → exports "Cython.Build" "cythonize" g →
  perform (req_cythonize g) w = (w3, Ret m) → toolchain_ready w3 = true →
  ∃ w4 d, perform (req_setup f m) w3 = (w4, Ret d) ∧ artifact_on_disk w4 = true.
Proof.
  intros ->%machine_exports_setup ->%machine_exports_cythonize Hcy Hok.
  assert (m = extension_list) as ->.
  { revert Hcy. cbn [perform req_cythonize host_call machine_host].
    unfold machine_call. rewrite bool_decide_eq_true_2 by done.
    case_bool_decide; intros ?; by simplify_eq. }
  cbn [perform req_setup host_call machine_host]. unfold machine_call.
  rewrite bool_decide_eq_false_2 by done.
  rewrite bool_decide_eq_true_2 by done.
  unfold toolchain_ready in Hok.
  destruct (has_distutils w3); [|done]. destruct (has_cython w3); [|done].
  destruct (argv w3) as [|cmd opts] eqn:Hargv; [done|].
  cbn [andb] in Hok.
  apply andb_prop in Hok as [[Hq Hb]%andb_prop Hnp].
  apply bool_decide_eq_true in Hq. apply bool_decide_eq_true in Hb.
  rewrite (bool_decide_eq_false_2 _ Hq), (bool_decide_eq_true_2 _ Hb).
  rewrite bool_decide_eq_true_2 by done.
  destruct (source_needs_numpy w3), (has_numpy w3); try done; cbn [andb negb].
  all: eexists _, _; split; [done|].
  all: unfold artifact_on_disk, add_file; cbn [files argv]; rewrite Hargv.
  all: apply bool_decide_eq_true_2; case_bool_decide; [done|].
  all: apply elem_of_app; right; by apply list_elem_of_singleton.
Qed.

(** C4, instances: on the build machine the step builds the extension in
    place, and without cLev.pyx it fails. *)
Lemma build_succeeds_with_source_fails_without :
  (outcome AsScript workstation = Ret ()
   ∧ artifact_on_disk (final_world AsScript workstation) = true)
  ∧ (∃ e, outcome AsScript without_source = Raise e)
  ∧ calls_at "setup" (history AsScript without_source) = [].
Proof.
  split.
  - apply (build_step_follows_toolchain source_on_disk artifact_on_disk
             toolchain_ready
             machine_imports_keep_source machine_cythonize_needs_source
             machine_working_import_setup machine_working_import_cythonize
             machine_working_cythonize machine_working_setup
             AsScript workstation); reflexivity.
  - apply (build_step_follows_toolchain source_on_disk artifact_on_disk
             toolchain_ready
             machine_imports_keep_source machine_cythonize_needs_source
             machine_working_import_setup machine_working_import_cythonize
             machine_working_cythonize machine_working_setup
             AsScript without_source). reflexivity.
Defined.

(** C4 as stated does not hold: cLev.pyx is on disk, but on a machine
    without Cython the step fails and leaves no compiled extension. *)
Lemma source_present_yet_no_artifact :
  source_on_disk without_cython = true
  ∧ outcome AsScript without_cython = Raise (no_module "Cython")
  ∧ artifact_on_disk (final_world AsScript without_cython) = false.
Proof. vm_compute. done. Qed.

(** Case analysis on an execution, with generated names: for proofs about
    two executions at once. *)
Ltac run_cases_anon mode w :=
  unfold history, outcome, final_world;
  destruct (exec_module_shape mode w);
  cbn [globals world trace fst snd].


(** What the script asks next is determined by the answers it has got so
    far: two executions, on any two hosts, whose first [k] answers agree make
    the same first [k + 1] requests. *)
Lemma next_request_determined {W1} {host1 : Host W1} {W2} {host2 : Host W2}
    (mode1 mode2 : run_mode) (u : W1) (v : W2) (k : nat) :
  take k (answers (history mode1 u)) = take k (answers (history mode2 v)) →
  take (S k) (requests (history mode1 u))
    = take (S k) (requests (history mode2 v)).
Proof.
  revert k. run_cases_anon mode1 u; run_cases_anon mode2 v; intros k;
    do 5 (destruct k as [|k]; [cbn; intros ?; by simplify_eq|]);
    cbn; intros ?; by simplify_eq.
Qed.



(** ** Two host states the toolchain cannot tell apart *)

(** One step of two executions side by side: the same request in related
    states, answered alike by [Hins], leaves related states. *)
Ltac lockstep R Hins :=
  match goal with
  | HR : R ?a ?b, E : perform ?q ?a = _, E' : perform ?q ?b = _ |- _ =>
      let K := fresh "K" in
      pose proof (Hins a b HR) as K; rewrite E, E' in K; cbn [fst snd] in K;
      destruct K as [? ?]; clear HR; simplify_eq
  end.

Section Lockstep.
Context `{Host W} (R : relation W).
Hypothesis import_setup_insensitive : insensitive R req_import_setup.
Hypothesis import_cythonize_insensitive : insensitive R req_import_cythonize.
Hypothesis cythonize_insensitive : ∀ g,
  exports "Cython.Build" "cythonize" g → insensitive R (req_cythonize g).

(** Two executions from related states either end alike before [setup] is
    called, or both call [setup] with the same object and the same keyword
    argument, in related states, after the same history. *)
Lemma lockstep_until_setup (mode : run_mode) (u v : W) :
  R u v →
  (history mode u = history mode v ∧ outcome mode u = outcome mode v
   ∧ R (final_world mode u) (final_world mode v)
   ∧ List.filter is_call (history mode u) = calls_at "cythonize" (history mode u)
   ∧ calls_at "setup" (history mode u) = [])
  ∨ ∃ pre f m u' v',
      R u' v'
      ∧ history mode u = pre ++ [Event (req_setup f m) (perform (req_setup f m) u').2]
      ∧ history mode v = pre ++ [Event (req_setup f m) (perform (req_setup f m) v').2]
      ∧ outcome mode u = drop_value (perform (req_setup f m) u').2
      ∧ outcome mode v = drop_value (perform (req_setup f m) v').2
      ∧ final_world mode u = (perform (req_setup f m) u').1
      ∧ final_world mode v = (perform (req_setup f m) v').1.
Proof.
  intros HR. run_cases mode u; run_cases_anon mode v.
  all: lockstep R import_setup_insensitive.
  all: try (left; by split_and!).
  all: lockstep R import_cythonize_insensitive.
  all: try (left; by split_and!).
  all: match goal with
       | E : perform req_import_cythonize ?a = (?b, Ret ?g0) |- _ =>
           assert (exports "Cython.Build" "cythonize" g0) as Hex
             by (by exists a, b)
       end.
  all: lockstep R (cythonize_insensitive _ Hex).
  all: try (left; by split_and!).
  all: right.
  all: match goal with
       | HR' : R ?a ?b, E : perform (req_setup ?f0 ?m0) ?a = _,
         E' : perform (req_setup ?f0 ?m0) ?b = _,
         E3 : perform (req_cythonize ?g0) _ = (?a, _) |- _ =>
           exists [Event req_import_setup (Ret f0);
                   Event req_import_cythonize (Ret g0);
                   Event (req_cythonize g0) (Ret m0)], f0, m0, a, b;
           rewrite E, E'; by split_and!
       end.
Qed.

End Lockstep.

(** ** The command line *)

Section CommandLine.
Context `{Host W}.
(** [same_but_command_line u v]: host states that differ at most in the
    command line the script was started with. *)
Variable same_but_command_line : relation W.

(** Neither import nor [cythonize] looks at the command line. *)
Hypothesis import_setup_ignores_argv :
  insensitive same_but_command_line req_import_setup.
Hypothesis import_cythonize_ignores_argv :
  insensitive same_but_command_line req_import_cythonize.
Hypothesis cythonize_ignores_argv : ∀ g,
  exports "Cython.Build" "cythonize" g →
  insensitive same_but_command_line (req_cythonize g).

(** C6. The script defines no command-line surface.  Started with two
    different command lines, it makes the same requests in the same order;
    the two histories agree entry by entry except, at most, in the answer
    that the call of [setup] gets.  If [setup] is not reached the outcome is
    the same.  So whatever the command line changes, it changes inside
    [setup].  Even for a toolchain that reads the command line elsewhere, the
    script's next request is fixed by the answers it has got: a difference
    always starts in an answer of the host, never in the script.  The only
    modules the script imports are distutils.core and Cython.Build: no sys,
    argparse, getopt or optparse. *)
Theorem command_line_only_read_by_setup (mode : run_mode) (u v : W) :
  same_but_command_line u v →
  requests (history mode u) = requests (history mode v)
  ∧ (∀ (u' v' : W) k,
       take k (answers (history mode u')) = take k (answers (history mode v')) →
       take (S k) (requests (history mode u'))
         = take (S k) (requests (history mode v')))
  ∧ Forall2 (λ ev1 ev2, ev1 = ev2
                         ∨ (is_call_at "setup" ev1 = true ∧ ev_req ev1 = ev_req ev2))
      (history mode u) (history mode v)
  ∧ (calls_at "setup" (history mode u) = [] → outcome mode u = outcome mode v)
  ∧ Forall (λ m, m ∈ ["distutils.core"; "Cython.Build"])
      (imported_modules (history mode u)).
Proof.
  intros HR.
  assert (∀ (P : event → event → Prop) tr,
            (∀ ev, P ev ev) → Forall2 P tr tr) as Hrefl.
  { intros P tr HP. induction tr; constructor; auto. }
  split_and!.
  - destruct (lockstep_until_setup same_but_command_line
                import_setup_ignores_argv import_cythonize_ignores_argv
                cythonize_ignores_argv mode u v HR)
      as [(-> & _)|(pre & f & m & u' & v' & _ & -> & -> & _)]; [done|].
    unfold requests. by rewrite !fmap_app.
  - intros u' v' k. apply next_request_determined.
  - destruct (lockstep_until_setup same_but_command_line
                import_setup_ignores_argv import_cythonize_ignores_argv
                cythonize_ignores_argv mode u v HR)
      as [(-> & _)|(pre & f & m & u' & v' & _ & -> & -> & _)].
    + apply Hrefl; auto.
    + apply Forall2_app; [apply Hrefl; auto|].
      constructor; [|constructor]. by right.
  - destruct (lockstep_until_setup same_but_command_line
                import_setup_ignores_argv import_cythonize_ignores_argv
                cythonize_ignores_argv mode u v HR)
      as [(_ & -> & _)|(pre & f & m & u' & v' & _ & -> & _)]; [done|].
    unfold calls_at. rewrite List.filter_app. cbn.
    intros []%app_eq_nil. done.
  - run_cases mode u; cbn;
      repeat first [apply Forall_nil_2 | apply Forall_cons_2];
      rewrite !elem_of_cons; auto.
Qed.

End CommandLine.

(** On the build machine neither import nor [cythonize] reads [argv]. *)
Lemma machine_import_ignores_argv (m n : string) :
  insensitive same_but_argv (ImportFrom m n).
Proof.
  intros w1 w2 (H1 & H2 & H3 & H4).
  cbn [perform host_import_from machine_host]. rewrite !machine_import_world.
  split; [done|]. unfold machine_import. rewrite H1, H2, H3.
  by repeat case_match.
Qed.

Lemma machine_cythonize_ignores_argv (g : value) :
  exports "Cython.Build" "cythonize" g →
  insensitive same_but_argv (req_cythonize g).
Proof.
  intros ->%machine_exports_cythonize w1 w2 (H1 & H2 & H3 & H4 & H5).
  cbn [perform req_cythonize host_call machine_host]. unfold machine_call.
  rewrite bool_decide_eq_true_2 by done. rewrite H4.
  case_match; (split; [|done]); [|by split_and!].
  unfold same_but_argv, add_file; cbn. by rewrite H1, H2, H3, H4, H5.
Qed.

(** C6, an instance: the build machine started with [build_ext --inplace]
    and with no command makes the same four requests. *)
Lemma same_requests_for_two_command_lines :
  requests (history AsScript workstation)
    = requests (history AsScript without_command).
Proof.
  apply (command_line_only_read_by_setup same_but_argv
           (machine_import_ignores_argv _ _) (machine_import_ignores_argv _ _)
           machine_cythonize_ignores_argv AsScript workstation without_command).
  by split_and!.
Defined.

(** C7, as the code has it.  The script calls [setup] at most once, and
    exactly once when its [cythonize] call has returned.  Its requests are
    made one at a time: each acts on the state its predecessor left and is
    made only after the predecessor has returned, in an order that never
    varies (import, import, [cythonize], [setup], cut short at the first
    request that raises); and the script ends with the answer of its last
    request. *)
Theorem requests_one_at_a_time_in_fixed_order `{Host W}
    (mode : run_mode) (w : W) :
  length (calls_at "setup" (history mode w)) ≤ 1
  ∧ (length (calls_at "setup" (history mode w)) = 1 ↔
       ∃ g m, Event (req_cythonize g) (Ret m) ∈ history mode w)
  ∧ runs_on w (history mode w) (final_world mode w)
  ∧ (∃ f g m, requests (history mode w) `prefix_of`
                [req_import_setup; req_import_cythonize;
                 req_cythonize g; req_setup f m])
  ∧ (∃ ev, last (history mode w) = Some ev
           ∧ outcome mode w = drop_value (ev_resp ev))
  ∧ (∀ i ev, history mode w !! i = Some ev →
       S i < length (history mode w) → returned ev = true).
Proof.
  split; [|split; [|split; [apply history_runs_on|split; [|split]]]].
  - run_cases mode w; cbn; lia.
  - run_cases mode w; cbn; split; try discriminate; try done.
    all: try (intros _; exists g, m; by apply (list_elem_of_lookup_2 _ 2)).
    all: intros (g' & m' & Hin);
      repeat (apply elem_of_cons in Hin as [Hin|Hin]);
      try (by apply elem_of_nil in Hin); discriminate Hin.
  - run_cases mode w; cbn;
      first [ exists f, g, m | exists f, g, (VObj 1)
            | exists f, (VObj 1), (VObj 1)
            | exists (VObj 1), (VObj 1), (VObj 1) ];
      by eexists.
  - run_cases mode w; cbn; eauto.
  - run_cases mode w; intros i ev Hi Hlen; cbn in Hlen;
      repeat (destruct i as [|i]; cbn in Hi; simplify_eq; try done; try lia).
Qed.

(** C7 as stated does not hold: on a machine without distutils the first
    statement raises, and the script ends without having called anything,
    [setup] included. *)
Lemma no_call_at_all_without_distutils :
  List.filter is_call (history AsScript without_distutils) = []
  ∧ calls_at "setup" (history AsScript without_distutils) = []
  ∧ outcome AsScript without_distutils = Raise (no_module "distutils").
Proof. vm_compute. done. Qed.

(** C7, an instance: on the build machine the [cythonize] call returns, so
    [setup] is called exactly once. *)
Lemma one_setup_call_on_workstation :
  length (calls_at "setup" (history AsScript workstation)) = 1.
Proof.
  apply (proj1 (proj2 (requests_one_at_a_time_in_fixed_order AsScript workstation))).
  exists cythonize_fn, extension_list. by apply (list_elem_of_lookup_2 _ 2).
Defined.



(** ** Cython is needed, numpy is not asked for *)

(** C9, as the code has it.  Cython is a hard import-time dependency, imported
    second: the history starts with the import of distutils.core, the import
    of Cython.Build is made only after that one has returned, and every call
    comes after a returned import of Cython.Build.  So if that import raises,
    the script fails with no call made, [setup] included.  numpy is never
    imported: no request asks for it, and when the script fails, the
    exception is the one raised by one of its four requests (an import of
    distutils.core or Cython.Build, [cythonize], [setup]).  Whether numpy is
    installed can therefore matter through these four only: if none of them
    can tell, the script's history and outcome are the same with and without
    numpy. *)
Theorem cython_imported_second_numpy_never `{Host W} (mode : run_mode) (w : W) :
  (∃ r, history mode w !! 0 = Some (Event req_import_setup r))
  ∧ (∀ i ev, history mode w !! i = Some ev → ev_req ev = req_import_cythonize →
       i = 1 ∧ ∃ f, history mode w !! 0 = Some (Event req_import_setup (Ret f)))
  ∧ (∀ i ev, history mode w !! i = Some ev → is_call ev = true →
       ∃ g, history mode w !! 1 = Some (Event req_import_cythonize (Ret g)) ∧ 1 < i)
  ∧ ((∃ e, (perform req_import_cythonize (perform req_import_setup w).1).2 = Raise e) →
       (∃ e, outcome mode w = Raise e) ∧ List.filter is_call (history mode w) = [])
  ∧ Forall (λ q, module_of q ≠ Some "numpy") (requests (history mode w))
  ∧ (∀ e, outcome mode w = Raise e →
       ∃ q, script_request q ∧ module_of q ≠ Some "numpy"
            ∧ last (history mode w) = Some (Event q (Raise e)))
  ∧ (∀ (same_but_numpy_installed : relation W) v,
       (∀ q, script_request q → insensitive same_but_numpy_installed q) →
       same_but_numpy_installed w v →
       history mode w = history mode v ∧ outcome mode w = outcome mode v).
Proof.
  split_and!.
  - run_cases mode w; cbn; eauto.
  - run_cases mode w; intros i ev Hi Hq;
      repeat (destruct i as [|i]; cbn in Hi; simplify_eq; try done);
      cbn in Hq; try discriminate Hq; eauto.
  - run_cases mode w; intros i ev Hi Hcall;
      repeat (destruct i as [|i]; cbn in Hi; simplify_eq; try done);
      (eexists; split; [done|lia]).
  - run_cases mode w; intros [e' He']; rewrite E1 in He'; cbn [fst snd] in He';
      try (rewrite E2 in He'; discriminate He'); (split; [eauto|done]).
  - run_cases mode w; cbn;
      repeat first [apply Forall_nil_2 | apply Forall_cons_2]; done.
  - run_cases mode w; intros e' He'; simplify_eq; cbn;
      eexists; (split; [|split; [|done]]); unfold script_request; eauto 7; done.
  - intros R v Hins HR.
    assert (insensitive R req_import_setup) as Hi1
      by (apply Hins; unfold script_request; auto).
    assert (insensitive R req_import_cythonize) as Hi2
      by (apply Hins; unfold script_request; auto).
    assert (∀ g, exports "Cython.Build" "cythonize" g →
                 insensitive R (req_cythonize g)) as Hcy
      by (intros g _; apply Hins; unfold script_request; eauto).
    destruct (lockstep_until_setup R Hi1 Hi2 Hcy mode w v HR)
      as [(-> & -> & _)
         |(pre & f & m & u' & v' & HR' & -> & -> & -> & -> & _)]; [done|].
    destruct (Hins (req_setup f m) ltac:(unfold script_request; eauto 7) u' v' HR')
      as [_ ->]. done.
Qed.

(** On the build machine, when the source does not need numpy, no request of
    the script sees whether numpy is installed. *)
Lemma machine_script_requests_ignore_numpy (q : request) :
  script_request q → insensitive same_but_numpy q.
Proof.
  intros Hq w1 w2 (H1 & H2 & H3 & H4 & H5 & H6).
  assert (module_of q ≠ Some "numpy") as Hnp.
  { destruct Hq as [->|[->|[[g ->]|(f & m & ->)]]]; done. }
  clear Hq. destruct q as [m n|site f args kwargs].
  - cbn [perform host_import_from machine_host]. rewrite !machine_import_world.
    split; [by split_and!|]. unfold machine_import. rewrite H1, H2.
    repeat case_bool_decide; try (by repeat case_match).
    all: subst m; by destruct Hnp.
  - cbn [perform host_call machine_host]. unfold machine_call.
    rewrite H3, H4, H5, H6. cbn [andb].
    repeat case_match; (split; [|done]);
      unfold same_but_numpy, add_file; cbn; by rewrite ?H1, ?H2, ?H3, ?H4, ?H5, ?H6.
Qed.

(** C9, instances: without Cython the build machine makes no call; and it
    does the same with and without numpy. *)
Lemma no_call_without_cython_same_run_without_numpy :
  ((∃ e, outcome AsScript without_cython = Raise e)
   ∧ List.filter is_call (history AsScript without_cython) = [])
  ∧ history AsScript workstation = history AsScript without_numpy
  ∧ outcome AsScript workstation = outcome AsScript without_numpy.
Proof.
  split.
  - apply (proj1 (proj2 (proj2 (proj2
             (cython_imported_second_numpy_never AsScript without_cython))))).
    by eexists.
  - apply (proj2 (proj2 (proj2 (proj2 (proj2 (proj2
             (cython_imported_second_numpy_never AsScript workstation))))))
             same_but_numpy without_numpy machine_script_requests_ignore_numpy).
    by split_and!.
Defined.

(** C9 as stated does not hold.  The first thing the script asks for is
    distutils.core, not Cython: on a machine that has neither, Cython is
    never asked for.  And numpy's absence alone can make the script fail,
    through [setup]: on a machine whose cLev.pyx needs numpy's headers the
    script completes with numpy installed and fails without it, having
    imported nothing but distutils.core and Cython.Build. *)
Lemma cython_not_first_and_numpy_can_matter :
  history AsScript workstation !! 0 = Some (Event req_import_setup (Ret setup_fn))
  ∧ imported_modules (history AsScript bare_python) = ["distutils.core"]
  ∧ outcome AsScript numpy_source_with_numpy = Ret ()
  ∧ outcome AsScript numpy_source_without_numpy
      = Raise (Exn "SystemExit" "error: command 'gcc' failed with exit code 1")
  ∧ imported_modules (history AsScript numpy_source_without_numpy)
      = ["distutils.core"; "Cython.Build"].
Proof. vm_compute. done. Qed.

(** ** The module's namespace *)

